(** * TrustWeb3Provider: the request dispatch and pending-call table of
    [src/index.js], embedded as a state-and-exception monad over the provider
    object, with the effects that leave the object (event emission, host
    bridge messages, collaborator calls, continuation calls) kept in a trace.

    Of the [console.log] lines, the one of [send] is modelled where it can
    throw (the conversion of the method to a string); the others only print.
    Left out: whatever the listeners, the host and the collaborators do once
    they have been called. *)

From Stdlib Require Import ZArith Ascii String DecimalString HexadecimalString.
From stdpp Require Import base gmap strings list.

Local Open Scope string_scope.
Local Open Scope list_scope.
#[local] Set Warnings "-register-all".

(** ** JavaScript values

    The plain data that flows through the provider.  Numbers are the
    integer-valued ones (request ids, chain ids); objects are plain data
    objects, a property list read first-match; [JError] is an instance of
    [Error] with its [message]; [JPromise] is the handle of a promise made by
    [send].  Functions, wrapper objects ([new String(...)]) and objects with
    methods of their own are outside this universe, and so are numbers of
    magnitude 10^21 and more. *)

Inductive jsvalue : Type :=
| JUndefined
| JNull
| JBool (b : bool)
| JNum (z : Z)
| JStr (s : string)
| JArr (items : list jsvalue)
| JObj (fields : list (string * jsvalue))
| JError (message : string)
| JPromise (p : nat).

(** ToBoolean. *)
Definition truthy (v : jsvalue) : bool :=
  match v with
  | JUndefined | JNull => false
  | JBool b => b
  | JNum z => negb (z =? 0)%Z
  | JStr s => negb (s =? "")
  | JArr _ | JObj _ | JError _ | JPromise _ => true
  end.

(** The [typeof] operator. *)
Definition typeof (v : jsvalue) : string :=
  match v with
  | JUndefined => "undefined"
  | JBool _ => "boolean"
  | JNum _ => "number"
  | JStr _ => "string"
  | JNull | JArr _ | JObj _ | JError _ | JPromise _ => "object"
  end.

Definition is_array (v : jsvalue) : bool :=
  match v with JArr _ => true | _ => false end.

Definition is_error (v : jsvalue) : bool :=
  match v with JError _ => true | _ => false end.

Fixpoint assoc (k : string) (fields : list (string * jsvalue)) : jsvalue :=
  match fields with
  | [] => JUndefined
  | (k', v) :: rest => if k' =? k then v else assoc k rest
  end.

(** Reading one of the data properties the provider asks for ([jsonrpc],
    [result], [method], [params], [id]) from a value that is neither [null]
    nor [undefined].  No built-in prototype carries these names, so only a
    plain object can answer with something else than [undefined]. *)
Definition get_field (v : jsvalue) (k : string) : jsvalue :=
  match v with
  | JObj fields => assoc k fields
  | _ => JUndefined
  end.

(** [params[i]] on an array: the element, or [undefined] past the end. *)
Definition index (v : jsvalue) (i : nat) : jsvalue :=
  match v with
  | JArr items => default JUndefined (items !! i)
  | _ => JUndefined
  end.

(** [Number.prototype.toString(10)] and [(16)] on an integer, in the range
    where JavaScript prints every digit (below 10^21 in magnitude). *)
Definition dec (z : Z) : string :=
  DecimalString.NilZero.string_of_int (Z.to_int z).

Definition hex (z : Z) : string :=
  match z with
  | Zneg p => "-" ++ HexadecimalString.NilZero.string_of_uint (Pos.to_hex_uint p)
  | _ => HexadecimalString.NilZero.string_of_uint (N.to_hex_uint (Z.to_N z))
  end.

Fixpoint join (sep : string) (parts : list string) : string :=
  match parts with
  | [] => ""
  | [s] => s
  | s :: rest => s ++ sep ++ join sep rest
  end.

(** ToString: used for property keys, for [new Error(v)] and by the
    [toString] methods. *)
Fixpoint to_string (v : jsvalue) : string :=
  match v with
  | JUndefined => "undefined"
  | JNull => "null"
  | JBool b => if b then "true" else "false"
  | JNum z => dec z
  | JStr s => s
  | JArr items =>
      join "," ((fix elems (l : list jsvalue) : list string :=
                   match l with
                   | [] => []
                   | JUndefined :: l' | JNull :: l' => "" :: elems l'
                   | x :: l' => to_string x :: elems l'
                   end) items)
  | JObj _ => "[object Object]"
  | JError m => if m =? "" then "Error" else "Error: " ++ m
  | JPromise _ => "[object Promise]"
  end.

(** Whether ToString completes.  An object converts through its [toString]
    property: a plain object that has one of its own, which in this universe
    is never a function, has nothing callable that returns a primitive, and
    the conversion throws a TypeError; an array converts its elements. *)
Fixpoint printable (v : jsvalue) : bool :=
  match v with
  | JObj fields => negb (existsb (fun kv => fst kv =? "toString") fields)
  | JArr items =>
      (fix all (l : list jsvalue) : bool :=
         match l with
         | [] => true
         | x :: l' => printable x && all l'
         end) items
  | _ => true
  end.

(** [new Error(v)]: the message is ToString of the argument, and empty when
    the argument is [undefined]. *)
Definition new_Error (v : jsvalue) : jsvalue :=
  match v with
  | JUndefined => JError ""
  | _ => JError (to_string v)
  end.

(** [String.prototype.toLowerCase], on the Latin letters. *)
Definition lower_ascii (c : ascii) : ascii :=
  let n := nat_of_ascii c in
  if (65 <=? n)%nat && (n <=? 90)%nat then ascii_of_nat (n + 32) else c.

Fixpoint toLowerCase (s : string) : string :=
  match s with
  | EmptyString => EmptyString
  | String c rest => String (lower_ascii c) (toLowerCase rest)
  end.

(** ** The pending-call table

    [this._promises] is an ordinary object made by [{}]: a store of own
    properties, keyed by the string the identifier converts to, whose
    prototype is [Object.prototype].  A continuation is one of the two
    resolving functions of the promise [send] created. *)

Inductive cont : Type :=
| ResolveOf (p : nat)
| RejectOf (p : nat).

Record entry : Type := Entry { resolve : cont; reject : cont }.

(** [proto] is [None] while the prototype is [Object.prototype], and
    [Some e] once an assignment to the key [__proto__] has made the entry
    object [e] the prototype. *)
Record table : Type := Table { own : gmap string entry; proto : option entry }.

Definition empty_table : table := Table ∅ None.

Definition object_prototype_keys : list string :=
  [ "constructor"; "__defineGetter__"; "__defineSetter__"; "hasOwnProperty";
    "__lookupGetter__"; "__lookupSetter__"; "isPrototypeOf";
    "propertyIsEnumerable"; "toString"; "valueOf"; "__proto__";
    "toLocaleString" ].

(** What [this._promises[k]] evaluates to. *)
Inductive slot : Type :=
| Missing                 (* undefined *)
| Found (e : entry)       (* an entry object *)
| Inherited.              (* a value found on the prototype chain that has
                             neither a [resolve] nor a [reject] property *)

(** The key [__proto__] is the accessor of [Object.prototype], never an own
    property: reading it yields the prototype, assigning an object to it
    replaces the prototype, and [delete] finds nothing to remove. *)
Definition tbl_get (t : table) (k : string) : slot :=
  if k =? "__proto__" then
    match proto t with Some e => Found e | None => Inherited end
  else
    match own t !! k with
    | Some e => Found e
    | None =>
        if bool_decide (k ∈ object_prototype_keys) then Inherited
        else match proto t with
             | Some _ => if (k =? "resolve") || (k =? "reject")
                         then Inherited else Missing
             | None => Missing
             end
    end.

(** [this._promises[k] = e]. *)
Definition tbl_set (k : string) (e : entry) (t : table) : table :=
  if k =? "__proto__" then Table (own t) (Some e)
  else Table (<[k := e]> (own t)) (proto t).

(** [delete this._promises[k]]. *)
Definition tbl_delete (k : string) (t : table) : table :=
  if k =? "__proto__" then t
  else Table (delete k (own t)) (proto t).

(** ** Effects that leave the provider object *)

Inductive event : Type :=
| Emit (name : string) (args : list jsvalue)
    (* EventEmitter.emit; the listeners are page code *)
| Settle (k : cont) (arg : jsvalue)
    (* a continuation of a pending entry is called *)
| HostPost (handler : string) (message : jsvalue)
    (* window.webkit.messageHandlers[handler].postMessage(message), on a host
       that has installed the handler *)
| RpcCall (rpcUrl payload id : jsvalue)
    (* this._rpc.call(payload), completing the pending identifier id *)
| FilterCall (rpcUrl : jsvalue) (op : string) (args : list jsvalue) (id : jsvalue)
    (* this._filterMgr.op(args), completing the pending identifier id *)
| Subscribe (p : nat) (callback : nat).
    (* sendAsync attaches its then/catch pair for callback to promise p *)

(** ** The provider object

    The fields of the instance, followed by the run-time state around it: how
    many promises have been created, how many identifiers [Utils.genId] has
    handed out, and the effects so far, oldest first.  [_rpc] and
    [_filterMgr] stand for the collaborator instances, named by the URL they
    were built with. *)

Record provider : Type := Provider {
  isTrust : bool;
  chainId : jsvalue;
  address : string;
  ready : bool;
  _rpc : jsvalue;
  _filterMgr : jsvalue;
  _promises : table;
  allocated : nat;
  generated : nat;
  trace : list event
}.

Definition set_isTrust (b : bool) (p : provider) : provider :=
  Provider b (chainId p) (address p) (ready p) (_rpc p) (_filterMgr p)
           (_promises p) (allocated p) (generated p) (trace p).
Definition set_chainId (v : jsvalue) (p : provider) : provider :=
  Provider (isTrust p) v (address p) (ready p) (_rpc p) (_filterMgr p)
           (_promises p) (allocated p) (generated p) (trace p).
Definition set_address (a : string) (p : provider) : provider :=
  Provider (isTrust p) (chainId p) a (ready p) (_rpc p) (_filterMgr p)
           (_promises p) (allocated p) (generated p) (trace p).
Definition set_ready (b : bool) (p : provider) : provider :=
  Provider (isTrust p) (chainId p) (address p) b (_rpc p) (_filterMgr p)
           (_promises p) (allocated p) (generated p) (trace p).
Definition set_rpc (url : jsvalue) (p : provider) : provider :=
  Provider (isTrust p) (chainId p) (address p) (ready p) url (_filterMgr p)
           (_promises p) (allocated p) (generated p) (trace p).
Definition set_filterMgr (url : jsvalue) (p : provider) : provider :=
  Provider (isTrust p) (chainId p) (address p) (ready p) (_rpc p) url
           (_promises p) (allocated p) (generated p) (trace p).
Definition set_promises (t : table) (p : provider) : provider :=
  Provider (isTrust p) (chainId p) (address p) (ready p) (_rpc p) (_filterMgr p)
           t (allocated p) (generated p) (trace p).
Definition set_allocated (n : nat) (p : provider) : provider :=
  Provider (isTrust p) (chainId p) (address p) (ready p) (_rpc p) (_filterMgr p)
           (_promises p) n (generated p) (trace p).
Definition set_generated (n : nat) (p : provider) : provider :=
  Provider (isTrust p) (chainId p) (address p) (ready p) (_rpc p) (_filterMgr p)
           (_promises p) (allocated p) n (trace p).
Definition log (ev : event) (p : provider) : provider :=
  Provider (isTrust p) (chainId p) (address p) (ready p) (_rpc p) (_filterMgr p)
           (_promises p) (allocated p) (generated p) (trace p ++ [ev]).

(** ** Methods run in a state monad with exceptions *)

Inductive exn : Type := TypeError.

Inductive completion (A : Type) : Type :=
| Normal (a : A)
| Throw (e : exn).
Arguments Normal {A} a.
Arguments Throw {A} e.

Definition M (A : Type) : Type := provider -> completion A * provider.

Definition ret {A} (a : A) : M A := fun p => (Normal a, p).
Definition throw {A} (e : exn) : M A := fun p => (Throw e, p).
Definition bind {A B} (m : M A) (k : A -> M B) : M B :=
  fun p => match m p with
           | (Normal a, p') => k a p'
           | (Throw e, p') => (Throw e, p')
           end.
Definition gets {A} (f : provider -> A) : M A := fun p => (Normal (f p), p).
Definition modify (f : provider -> provider) : M unit := fun p => (Normal tt, f p).

Notation "'let!' x ':=' m 'in' k" := (bind m (fun x => k))
  (at level 10, x name, m at level 100, k at level 200, only parsing).
Notation "m ;; k" := (bind m (fun _ => k))
  (at level 100, k at level 200, right associativity, only parsing).

(** [v.k] as a statement of the program: a read on [null] or [undefined]
    throws. *)
Definition member (v : jsvalue) (k : string) : M jsvalue :=
  match v with
  | JUndefined | JNull => throw TypeError
  | _ => ret (get_field v k)
  end.

(** [a || b]. *)
Definition or_else (a b : jsvalue) : jsvalue := if truthy a then a else b.

(** [v.toLowerCase()]: only a string has the method. *)
Definition call_toLowerCase (v : jsvalue) : M string :=
  match v with
  | JStr s => ret (toLowerCase s)
  | _ => throw TypeError
  end.

Inductive radix : Type := Radix10 | Radix16.

(** [v.toString(radix)]: [null] and [undefined] have no methods, a number
    prints in the radix, every other value ignores the argument. *)
Definition call_toString (v : jsvalue) (r : radix) : M string :=
  match v with
  | JUndefined | JNull => throw TypeError
  | JNum z => ret (match r with Radix10 => dec z | Radix16 => hex z end)
  | _ => ret (to_string v)
  end.

(** *** Events *)

Definition emit (name : string) (args : list jsvalue) : M unit :=
  modify (log (Emit name args)).

Definition _emitNotification (result : jsvalue) : M unit :=
  emit "notification" [result].
Definition _emitConnect : M unit := emit "connect" [].
Definition _emitClose (code reason : jsvalue) : M unit :=
  emit "close" [code; reason].
Definition _emitNetworkChanged (networkId : jsvalue) : M unit :=
  emit "networkChanged" [networkId].
Definition _emitAccountsChanged (accounts : jsvalue) : M unit :=
  emit "accountsChanged" [accounts].
Definition _connect : M unit := _emitConnect.

(** *** Configuration *)

Record Config : Type := {
  config_chainId : jsvalue;
  config_address : jsvalue;
  config_rpcUrl : jsvalue
}.

(** The object before the constructor body has run. *)
Definition blank : provider :=
  Provider false JUndefined "" false JUndefined JUndefined empty_table 0 0 [].

Definition constructor (config : Config) : M unit :=
  modify (set_isTrust true) ;;
  modify (set_chainId (config_chainId config)) ;;
  let! a := call_toLowerCase (or_else (config_address config) (JStr "")) in
  modify (set_address a) ;;
  modify (set_ready (truthy (config_address config))) ;;
  modify (set_rpc (config_rpcUrl config)) ;;
  modify (set_filterMgr (config_rpcUrl config)) ;;
  modify (set_promises empty_table) ;;
  _connect.

(** [new TrustWeb3Provider(config)]. *)
Definition new_provider (config : Config) : completion unit * provider :=
  constructor config blank.

Definition setAddress (addr : jsvalue) : M unit :=
  let! a := call_toLowerCase (or_else addr (JStr "")) in
  modify (set_address a) ;;
  modify (set_ready (truthy addr)) ;;
  let! this_address := gets address in
  _emitAccountsChanged (JArr [JStr this_address]).

Definition setConfig (config : Config) : M unit :=
  setAddress (config_address config) ;;
  modify (set_chainId (config_chainId config)) ;;
  modify (set_rpc (config_rpcUrl config)) ;;
  modify (set_filterMgr (config_rpcUrl config)) ;;
  let! c := gets chainId in
  _emitNetworkChanged c.

(** *** Completion of pending calls *)

(** [let { f } = this._promises[id]]: destructuring [undefined] throws; a
    value without the property binds [undefined]. *)
Definition destructure (f : entry -> cont) (id : jsvalue) : M (option cont) :=
  let! t := gets _promises in
  match tbl_get t (to_string id) with
  | Missing => throw TypeError
  | Inherited => ret None
  | Found e => ret (Some (f e))
  end.

Definition delete_promise (id : jsvalue) : M unit :=
  modify (fun p => set_promises (tbl_delete (to_string id) (_promises p)) p).

Definition envelope (id result : jsvalue) : jsvalue :=
  JObj [("jsonrpc", JStr "2.0"); ("id", id); ("result", result)].

Definition _resolve (id result : jsvalue) : M unit :=
  let! wrapped :=
    (if typeof result =? "object" then
       let! j := member result "jsonrpc" in
       if truthy j then
         let! r := member result "result" in ret (truthy r)
       else ret false
     else ret false) in
  let! data_result :=
    (if wrapped : bool then member result "result" else ret result) in
  let data := envelope id data_result in
  let! k := destructure resolve id in
  match k with
  | Some resolve_fn => modify (log (Settle resolve_fn data)) ;; delete_promise id
  | None => ret tt
  end.

Definition _reject (id error : jsvalue) : M unit :=
  let! k := destructure reject id in
  match k with
  | Some reject_fn =>
      modify (log (Settle reject_fn
                     (if is_error error then error else new_Error error))) ;;
      delete_promise id
  | None => ret tt
  end.

(** *** The host bridge *)

Definition postMessage (handler : string) (id data : jsvalue) : M unit :=
  let! r := gets ready in
  if (r : bool) || (handler =? "requestAccounts") then
    modify (log (HostPost handler
                   (JObj [("name", JStr handler); ("object", data); ("id", id)])))
  else
    _reject id (JError "provider is not ready").

(** *** Internal RPC handlers *)

Definition eth_accounts : M jsvalue :=
  let! a := gets address in
  ret (if truthy (JStr a) then JArr [JStr a] else JArr []).

Definition eth_coinbase : M jsvalue :=
  let! a := gets address in ret (JStr a).

Definition net_version : M jsvalue :=
  let! c := gets chainId in
  let! s := call_toString c Radix10 in
  ret (or_else (JStr s) JNull).

Definition eth_chainId : M jsvalue :=
  let! c := gets chainId in
  let! s := call_toString c Radix16 in
  ret (JStr ("0x" ++ s)).

(** The request object [{ jsonrpc, id, method, params }] built by [send]. *)
Record Payload : Type := {
  payload_jsonrpc : string;
  payload_id : jsvalue;
  payload_method : jsvalue;
  payload_params : jsvalue
}.

Definition payload_value (payload : Payload) : jsvalue :=
  JObj [("jsonrpc", JStr (payload_jsonrpc payload)); ("id", payload_id payload);
        ("method", payload_method payload);
        ("params", payload_params payload)].

Definition eth_sign (payload : Payload) : M unit :=
  postMessage "signMessage" (payload_id payload)
    (JObj [("data", index (payload_params payload) 1)]).

Definition personal_sign (payload : Payload) : M unit :=
  postMessage "signPersonalMessage" (payload_id payload)
    (JObj [("data", index (payload_params payload) 0)]).

Definition personal_ecRecover (payload : Payload) : M unit :=
  postMessage "ecRecover" (payload_id payload)
    (JObj [("signature", index (payload_params payload) 1);
           ("message", index (payload_params payload) 0)]).

Definition eth_signTypedData (payload : Payload) : M unit :=
  postMessage "signTypedMessage" (payload_id payload)
    (JObj [("data", index (payload_params payload) 1)]).

Definition eth_sendTransaction (payload : Payload) : M unit :=
  postMessage "signTransaction" (payload_id payload)
    (index (payload_params payload) 0).

Definition eth_requestAccounts (payload : Payload) : M unit :=
  postMessage "requestAccounts" (payload_id payload) (JObj []).

(** The filter manager and the RPC server are collaborators: the call is
    recorded, and its [then]/[catch] pair later runs [_resolve] or [_reject]
    on the recorded identifier. *)
Definition filter_call (op : string) (args : list jsvalue) (payload : Payload)
  : M unit :=
  let! mgr := gets _filterMgr in
  modify (log (FilterCall mgr op args (payload_id payload))).

Definition eth_newFilter (payload : Payload) : M unit :=
  filter_call "newFilter" [payload_value payload] payload.
Definition eth_newBlockFilter (payload : Payload) : M unit :=
  filter_call "newBlockFilter" [] payload.
Definition eth_newPendingTransactionFilter (payload : Payload) : M unit :=
  filter_call "newPendingTransactionFilter" [] payload.
Definition eth_uninstallFilter (payload : Payload) : M unit :=
  filter_call "uninstallFilter" [index (payload_params payload) 0] payload.
Definition eth_getFilterChanges (payload : Payload) : M unit :=
  filter_call "getFilterChanges" [index (payload_params payload) 0] payload.
Definition eth_getFilterLogs (payload : Payload) : M unit :=
  filter_call "getFilterLogs" [index (payload_params payload) 0] payload.

Definition rpc_call (payload : Payload) : M unit :=
  let! rpc := gets _rpc in
  modify (log (RpcCall rpc (payload_value payload) (payload_id payload))).

(** [case "lit":] of a [switch (v)]: strict equality with a string. *)
Definition is_case (v : jsvalue) (lit : string) : bool :=
  match v with
  | JStr s => s =? lit
  | _ => false
  end.

(** The [switch] of [send]. *)
Definition dispatch (payload : Payload) : M unit :=
  let m := payload_method payload in
  if is_case m "eth_accounts" then
    let! r := eth_accounts in _resolve (payload_id payload) r
  else if is_case m "eth_coinbase" then
    let! r := eth_coinbase in _resolve (payload_id payload) r
  else if is_case m "net_version" then
    let! r := net_version in _resolve (payload_id payload) r
  else if is_case m "eth_chainId" then
    let! r := eth_chainId in _resolve (payload_id payload) r
  else if is_case m "eth_sign" then eth_sign payload
  else if is_case m "personal_sign" then personal_sign payload
  else if is_case m "personal_ecRecover" then personal_ecRecover payload
  else if is_case m "eth_signTypedData" || is_case m "eth_signTypedData_v3"
  then eth_signTypedData payload
  else if is_case m "eth_sendTransaction" then eth_sendTransaction payload
  else if is_case m "eth_requestAccounts" then eth_requestAccounts payload
  else if is_case m "eth_newFilter" then eth_newFilter payload
  else if is_case m "eth_newBlockFilter" then eth_newBlockFilter payload
  else if is_case m "eth_newPendingTransactionFilter" then
    eth_newPendingTransactionFilter payload
  else if is_case m "eth_uninstallFilter" then eth_uninstallFilter payload
  else if is_case m "eth_getFilterChanges" then eth_getFilterChanges payload
  else if is_case m "eth_getFilterLogs" then eth_getFilterLogs payload
  else rpc_call payload.

(** [new Promise((resolve, reject) => { this._promises[id] = { resolve,
    reject } })]: the executor runs at once. *)
Definition new_promise (id : jsvalue) : M jsvalue :=
  let! n := gets allocated in
  modify (set_allocated (S n)) ;;
  modify (fun p => set_promises
            (tbl_set (to_string id) (Entry (ResolveOf n) (RejectOf n))
                     (_promises p)) p) ;;
  ret (JPromise n).

Section Provider.

(** [Utils.genId] lives in [./utils], outside this file: [genId n] is the
    identifier its [n]-th call returns. *)
Variable genId : nat -> jsvalue.

Definition Utils_genId : M jsvalue :=
  let! n := gets generated in
  modify (set_generated (S n)) ;;
  ret (genId n).

Definition send (method params id : jsvalue) : M jsvalue :=
  (* console.log(`<== send ${method} ...`) converts the method to a string *)
  (if printable method then ret tt else throw TypeError) ;;
  if negb (truthy method) || negb (typeof method =? "string") then
    ret (JError "Method is not a valid string.")
  else if negb (is_array params) then
    ret (JError "Params is not a valid array.")
  else
    let! id := (if negb (truthy id) then Utils_genId else ret id) in
    let payload := Build_Payload "2.0" id method params in
    let! promise := new_promise (payload_id payload) in
    dispatch payload ;;
    ret promise.

(** What the [then]/[catch] pair that [sendAsync] attaches to a single
    request passes to the callback. *)
Definition sendAsync_then (data : jsvalue) : list jsvalue := [JNull; data].
Definition sendAsync_catch (error : jsvalue) : list jsvalue :=
  [if is_error error then error else new_Error error; JNull].

Definition sendAsync (payload : jsvalue) (callback : nat) : M unit :=
  if is_array payload then
    (* payload.map(this.send(payload.method, payload.params, payload.id)):
       an array has none of the three properties, and what send returns, an
       Error or a Promise, is not callable, which map refuses. *)
    let! _ := send (get_field payload "method") (get_field payload "params")
                   (get_field payload "id") in
    throw TypeError
  else
    let! method := member payload "method" in
    let! params := member payload "params" in
    let! id := member payload "id" in
    let! r := send method params id in
    match r with
    | JPromise p => modify (log (Subscribe p callback))
    | _ => throw TypeError        (* an Error has no then method *)
    end.

End Provider.

(** ** Vocabulary of the statements *)

Definition string_or_absent (v : jsvalue) : Prop :=
  v = JUndefined \/ exists s, v = JStr s.

(** The account string the code keeps for an address argument. *)
Definition normalized (v : jsvalue) : string :=
  match v with
  | JStr s => toLowerCase s
  | _ => ""
  end.

Definition ready_matches_address (p : provider) : Prop :=
  ready p = negb (address p =? "").




Definition nonempty_string (v : jsvalue) : Prop :=
  exists s, v = JStr s /\ s <> "".

Definition array_value (v : jsvalue) : Prop := exists items, v = JArr items.

(** The unwrapping test of [_resolve], for a value other than [null]. *)
Definition unwrapped (v : jsvalue) : jsvalue :=
  if (typeof v =? "object") && truthy (get_field v "jsonrpc")
     && truthy (get_field v "result")
  then get_field v "result" else v.

(** The entry [send] registers for the promise numbered [n]. *)
Definition entry_of (n : nat) : entry := Entry (ResolveOf n) (RejectOf n).

(** The provider after an entry has been consumed by [_resolve] or
    [_reject]: the continuation call is recorded, the key deleted. *)
Definition settled (id : jsvalue) (k : cont) (arg : jsvalue) (p : provider)
  : provider :=
  set_promises (tbl_delete (to_string id) (_promises p)) (log (Settle k arg) p).


(** The message [postMessage] hands to the host. *)
Definition host_message (handler : string) (id data : jsvalue) : jsvalue :=
  JObj [("name", JStr handler); ("object", data); ("id", id)].

(** The identifier a call of [send] goes by, and the provider once [send]
    has fixed it and run the promise executor, before the [switch]. *)
Definition effective_id (genId : nat -> jsvalue) (id : jsvalue) (p : provider)
  : jsvalue :=
  if truthy id then id else genId (generated p).

Definition registered (genId : nat -> jsvalue) (id : jsvalue) (p : provider)
  : provider :=
  let p1 := if truthy id then p else set_generated (S (generated p)) p in
  set_promises
    (tbl_set (to_string (effective_id genId id p)) (entry_of (allocated p))
             (_promises p1))
    (set_allocated (S (allocated p)) p1).

(** How a step may change the table with respect to one identifier. *)
Definition table_step (id : jsvalue) (q q' : provider) : Prop :=
  _promises q' = _promises q \/
  _promises q' = tbl_delete (to_string id) (_promises q).

(** Sample inputs. *)
Definition sample_genId (n : nat) : jsvalue := JNum (Z.of_nat n + 1000).
Definition sample_config : Config :=
  Build_Config (JNum 1) (JStr "0xABC") (JStr "https://node.example").
Definition sample_provider : provider := snd (new_provider sample_config).

(** ** Operations on a running provider

    What page code, the host and the collaborators can run on the object:
    the configuration methods, the two call entry points, the bridge, and
    the two completion entry points. *)
Inductive operation : Type :=
| DoSetAddress (a : jsvalue)
| DoSetConfig (config : Config)
| DoSend (method params id : jsvalue)
| DoSendAsync (payload : jsvalue) (callback : nat)
| DoPostMessage (handler : string) (id data : jsvalue)
| DoResolve (id result : jsvalue)
| DoReject (id error : jsvalue).

(** The provider after an operation, whether it returned or threw. *)
Definition perform (genId : nat -> jsvalue) (o : operation) (p : provider)
  : provider :=
  match o with
  | DoSetAddress a => snd (setAddress a p)
  | DoSetConfig config => snd (setConfig config p)
  | DoSend method params id => snd (send genId method params id p)
  | DoSendAsync payload callback => snd (sendAsync genId payload callback p)
  | DoPostMessage handler id data => snd (postMessage handler id data p)
  | DoResolve id result => snd (_resolve id result p)
  | DoReject id error => snd (_reject id error p)
  end.

(** The providers that exist: built by the constructor, then operated on. *)
Inductive reachable (genId : nat -> jsvalue) : provider -> Prop :=
| reachable_new (config : Config) (p : provider) :
    new_provider config = (Normal tt, p) -> reachable genId p
| reachable_perform (o : operation) (p : provider) :
    reachable genId p -> reachable genId (perform genId o p).

(** *** Backwards compatibility: [enable]

    [enable] is [send("eth_requestAccounts", [])] chained with
    [result => result.result].  [enable] below is the call, run as a method
    of the provider, and returns the promise of the call; [enable_then] is
    the function the returned promise is chained with. *)
Definition enable (genId : nat -> jsvalue) : M jsvalue :=
  send genId (JStr "eth_requestAccounts") (JArr []) JUndefined.

Definition enable_then (result : jsvalue) : completion jsvalue :=
  match result with
  | JUndefined | JNull => Throw TypeError
  | _ => Normal (get_field result "result")
  end.


(** The fields a call leaves alone. *)
Definition same_settings (q q' : provider) : Prop :=
  isTrust q' = isTrust q /\ chainId q' = chainId q /\ address q' = address q /\
  ready q' = ready q /\ _rpc q' = _rpc q /\ _filterMgr q' = _filterMgr q.

Definition at_most_one_effect (q q' : provider) : Prop :=
  trace q' = trace q \/ exists ev, trace q' = trace q ++ [ev].

(** What completing or bridging one identifier may change. *)
Definition completion_frame (id : jsvalue) (q q' : provider) : Prop :=
  same_settings q q' /\ allocated q' = allocated q /\
  generated q' = generated q /\ table_step id q q' /\ at_most_one_effect q q'.

(** Every entry of the table is the pair of continuations of one promise
    that has been created. *)
Definition entries_created (p : provider) : Prop :=
  forall k e,
    tbl_get (_promises p) k = Found e ->
    exists n, e = entry_of n /\ n < allocated p.

(** What every provider that exists satisfies. *)
Definition well_formed (p : provider) : Prop :=
  ready_matches_address p /\ entries_created p.

(** The request object [send] builds, as the collaborators receive it. *)
Definition request (id method params : jsvalue) : jsvalue :=
  JObj [("jsonrpc", JStr "2.0"); ("id", id); ("method", method);
        ("params", params)].


Definition posted (genId : nat -> jsvalue) (id : jsvalue) (p : provider)
    (handler : string) (object : jsvalue) : completion jsvalue * provider :=
  (Normal (JPromise (allocated p)),
   log (HostPost handler
          (JObj [("name", JStr handler); ("object", object);
                 ("id", effective_id genId id p)]))
       (registered genId id p)).


(** Closes a goal [exists r q', run = (r, q') /\ completion_frame id q q']
    once [run] has been reduced to a pair. *)
Ltac frame_done :=
  eexists _, _; split;
  [reflexivity
  | unfold completion_frame, same_settings, table_step, at_most_one_effect;
    repeat match goal with |- _ /\ _ => split end;
    first [reflexivity | left; reflexivity | right; reflexivity
          | right; eexists; reflexivity]].


Example dec_1 : dec 1 = "1". Proof. reflexivity. Qed.
Example dec_0 : dec 0 = "0". Proof. reflexivity. Qed.
Example hex_56 : hex 56 = "38". Proof. reflexivity. Qed.
Example hex_255 : hex 255 = "ff". Proof. reflexivity. Qed.
Example lower_mixed : toLowerCase "0xABC" = "0xabc". Proof. reflexivity. Qed.
Example to_string_arr :
  to_string (JArr [JNum 1; JNull; JStr "a"; JArr [JNum 2; JNum 3]]) = "1,,a,2,3".
Proof. reflexivity. Qed.

(** * Properties *)

(** ** Running the monad *)

Lemma bind_normal {A B} (m : M A) (k : A -> M B) p a p' :
  m p = (Normal a, p') -> bind m k p = k a p'.
Proof. intros H. unfold bind. now rewrite H. Qed.

Lemma bind_throw {A B} (m : M A) (k : A -> M B) p e p' :
  m p = (Throw e, p') -> bind m k p = (Throw e, p').
Proof. intros H. unfold bind. now rewrite H. Qed.

(** ** Strings *)

Lemma toLowerCase_empty_iff s : (toLowerCase s =? "") = (s =? "").
Proof. destruct s; reflexivity. Qed.

Lemma truthy_JStr s : truthy (JStr s) = negb (s =? "").
Proof. reflexivity. Qed.

(** ** C2: readiness follows the stored address *)

Lemma setAddress_string_or_absent a p :
  string_or_absent a ->
  setAddress a p =
    (Normal tt,
     log (Emit "accountsChanged" [JArr [JStr (normalized a)]])
         (set_ready (truthy a) (set_address (normalized a) p))).
Proof.
  intros [-> | [s ->]]; [reflexivity |].
  unfold setAddress, or_else. rewrite truthy_JStr.
  destruct s; reflexivity.
Qed.

Lemma normalized_ready a :
  string_or_absent a -> truthy a = negb (normalized a =? "").
Proof.
  intros [-> | [s ->]]; [reflexivity |].
  cbn [truthy normalized]. now rewrite toLowerCase_empty_iff.
Qed.

(** C2.  When the address argument is a string or absent, the constructor,
    [setAddress] and [setConfig] each complete normally, store the
    lower-cased address, and leave [ready] true exactly when the stored
    address is not the empty string. *)
Theorem ready_iff_address_nonempty (config : Config) (a : jsvalue) (p : provider) :
  string_or_absent (config_address config) ->
  string_or_absent a ->
  (exists p', new_provider config = (Normal tt, p') /\
              address p' = normalized (config_address config) /\
              ready_matches_address p') /\
  (exists p', setAddress a p = (Normal tt, p') /\
              address p' = normalized a /\
              ready_matches_address p') /\
  (exists p', setConfig config p = (Normal tt, p') /\
              address p' = normalized (config_address config) /\
              ready_matches_address p').
Proof.
  intros Hc Ha. split; [| split].
  - destruct config as [c addr url]; cbn [config_address] in *.
    pose proof (normalized_ready addr Hc) as Hr.
    destruct Hc as [-> | [s ->]].
    + eexists; split; [reflexivity |]. split; reflexivity.
    + unfold new_provider, constructor, or_else. cbn [config_address].
      rewrite truthy_JStr.
      assert (Hl : call_toLowerCase (if negb (s =? "") then JStr s else JStr "")
                   = ret (toLowerCase s)) by (destruct s; reflexivity).
      eexists; split.
      * cbn -[truthy toLowerCase call_toLowerCase]. rewrite Hl. reflexivity.
      * split; [reflexivity |]. exact Hr.
  - eexists; split; [apply setAddress_string_or_absent; exact Ha |].
    split; [reflexivity |]. apply normalized_ready, Ha.
  - unfold setConfig.
    erewrite bind_normal by (apply setAddress_string_or_absent; exact Hc).
    eexists; split; [reflexivity |].
    split; [reflexivity |]. apply normalized_ready, Hc.
Qed.

Lemma ready_iff_address_nonempty_witness :
  exists p',
    setAddress (JStr "0xABC") blank = (Normal tt, p') /\
    address p' = "0xabc" /\ ready p' = true.
Proof.
  destruct (ready_iff_address_nonempty
              (Build_Config (JNum 1) JUndefined (JStr "https://node"))
              (JStr "0xABC") blank) as (_ & (p' & H1 & H2 & H3) & _).
  - left; reflexivity.
  - right; exists "0xABC"; reflexivity.
  - exists p'. split; [exact H1 |]. split; [exact H2 |].
    unfold ready_matches_address in H3. rewrite H3, H2. reflexivity.
Defined.

(** ** The table *)

Lemma tbl_get_set_eq k e t : tbl_get (tbl_set k e t) k = Found e.
Proof.
  unfold tbl_get, tbl_set. destruct (k =? "__proto__") eqn:E; cbn.
  - reflexivity.
  - now rewrite lookup_insert_eq.
Qed.

Lemma tbl_get_set_ne k k' e t :
  k <> k' -> k' <> "resolve" -> k' <> "reject" ->
  tbl_get (tbl_set k e t) k' = tbl_get t k'.
Proof.
  intros Hne Hr1 Hr2. unfold tbl_get, tbl_set.
  destruct (k =? "__proto__") eqn:E; cbn.
  - apply String.eqb_eq in E. subst k.
    destruct (k' =? "__proto__") eqn:E'.
    + apply String.eqb_eq in E'. congruence.
    + apply String.eqb_neq in Hr1, Hr2. rewrite Hr1, Hr2. cbn.
      destruct (own t !! k'); [reflexivity |].
      destruct (bool_decide _); [reflexivity |]. now destruct (proto t).
  - destruct (k' =? "__proto__"); [reflexivity |].
    now rewrite lookup_insert_ne.
Qed.

Lemma tbl_get_delete_not_found k t e :
  k <> "__proto__" -> tbl_get (tbl_delete k t) k <> Found e.
Proof.
  intros Hk. apply String.eqb_neq in Hk. unfold tbl_get, tbl_delete.
  rewrite Hk. cbn. rewrite lookup_delete_eq.
  destruct (bool_decide _); [discriminate |].
  destruct (proto t); [| discriminate].
  destruct (_ || _); discriminate.
Qed.

(** ** Completion of a live entry *)


Lemma _reject_missing id err p :
  tbl_get (_promises p) (to_string id) = Missing ->
  _reject id err p = (Throw TypeError, p).
Proof.
  intros H. unfold _reject, destructure, bind, gets. now rewrite H.
Qed.

Lemma _resolve_found id v p e :
  v <> JNull ->
  tbl_get (_promises p) (to_string id) = Found e ->
  _resolve id v p =
    (Normal tt, settled id (resolve e) (envelope id (unwrapped v)) p).
Proof.
  intros Hv H. unfold _resolve, unwrapped, destructure, bind, gets.
  destruct v; try congruence; cbn; rewrite ?H; try reflexivity.
  destruct (truthy (assoc "jsonrpc" fields)); cbn; rewrite ?H; [| reflexivity].
  destruct (truthy (assoc "result" fields)); cbn; now rewrite H.
Qed.

Lemma _resolve_missing id v p :
  tbl_get (_promises p) (to_string id) = Missing ->
  _resolve id v p = (Throw TypeError, p).
Proof.
  intros H. unfold _resolve, destructure, bind, gets.
  destruct v; cbn; rewrite ?H; try reflexivity.
  destruct (truthy (assoc "jsonrpc" fields)); cbn; rewrite ?H; [| reflexivity].
  destruct (truthy (assoc "result" fields)); cbn; now rewrite H.
Qed.




(** ** C1: completion of an identifier that has no entry *)

(** C1.  The claim is that [_resolve] and [_reject] on an identifier without
    a live entry are silent no-ops.  On a freshly built provider, and again
    on an identifier whose entry a first [_resolve] has consumed, both throw
    a TypeError instead: destructuring [this._promises[id]] fails before the
    guard is reached.  No continuation is called and the provider is
    unchanged, but the error escapes. *)
Theorem resolve_reject_without_entry_throw :
  tbl_get (_promises sample_provider) (to_string (JNum 7)) = Missing /\
  _resolve (JNum 7) (JStr "0x1") sample_provider
    = (Throw TypeError, sample_provider) /\
  _reject (JNum 7) (JStr "late") sample_provider
    = (Throw TypeError, sample_provider) /\
  let p1 := snd (send sample_genId (JStr "eth_accounts") (JArr []) (JNum 7)
                   sample_provider) in
  trace p1 = trace sample_provider ++
             [Settle (ResolveOf 0) (envelope (JNum 7) (JArr [JStr "0xabc"]))] /\
  _resolve (JNum 7) (JArr [JStr "0xabc"]) p1 = (Throw TypeError, p1) /\
  _reject (JNum 7) (JStr "late") p1 = (Throw TypeError, p1).
Proof. vm_compute. repeat split; reflexivity. Qed.

(** ** C6: the envelope handed to the success continuation *)




(** ** C3: reconfiguration leaves the table alone *)




(** ** C5: validation in [send] *)

(** When the method can be converted to a string and is not a non-empty
    string, or the parameters are not an array, [send] returns an [Error]
    value to its caller at once, the provider being exactly as before. *)
Lemma send_malformed_printable
    (genId : nat -> jsvalue) (method params id : jsvalue) (p : provider) :
  printable method = true ->
  ~ nonempty_string method \/ ~ array_value params ->
  exists message,
    send genId method params id p = (Normal (JError message), p).
Proof.
  intros Hpr H. unfold send. rewrite Hpr. unfold bind at 1. cbn [ret].
  destruct (negb (truthy method) || negb (typeof method =? "string")) eqn:Hm.
  - eexists; reflexivity.
  - destruct (is_array params) eqn:Hp; cbn [negb].
    + exfalso. destruct H as [H | H]; apply H.
      * destruct method as [| | b | z | s | l | fs | msg | n]; cbn in Hm;
          rewrite ?orb_true_r in Hm; try discriminate Hm.
        exists s. split; [reflexivity |]. intros ->. discriminate Hm.
      * destruct params; try discriminate Hp. now eexists.
    + eexists; reflexivity.
Qed.

(** C5.  The claim is that every call of [send] with a malformed method or
    parameter list returns an error value.  The validation does that for a
    number as method and for a string as parameters, but the log line in
    front of it converts the method to a string first: for a method that is
    an object with a [toString] property of its own that is not a function,
    the conversion throws, and [send] throws a TypeError to its caller
    instead of returning the error value.  No entry is registered in either
    case. *)
Theorem send_log_line_throws_before_validation :
  send sample_genId (JObj [("toString", JNum 5)]) (JArr []) JUndefined
       sample_provider
    = (Throw TypeError, sample_provider) /\
  send sample_genId (JNum 123) (JArr []) JUndefined sample_provider
    = (Normal (JError "Method is not a valid string."), sample_provider) /\
  send sample_genId (JStr "eth_foo") (JStr "not-an-array") JUndefined
       sample_provider
    = (Normal (JError "Params is not a valid array."), sample_provider).
Proof. vm_compute. repeat split; reflexivity. Qed.

(** ** C8: the network-version query *)

Lemma dec_nonempty z : (dec z =? "") = false.
Proof.
  unfold dec. destruct (Z.to_int z) as [d | d]; [| reflexivity].
  destruct d; reflexivity.
Qed.

(** On an integer chain id the handler answers its decimal string, zero
    included. *)
Lemma net_version_integer z p :
  (Z.abs z < 10 ^ 21)%Z ->
  chainId p = JNum z -> net_version p = (Normal (JStr (dec z)), p).
Proof.
  intros _ H. unfold net_version, bind, gets, or_else. rewrite H. cbn.
  now rewrite dec_nonempty.
Qed.

(** C8.  The claim is that the query answers [null] for a falsy chain id.
    With chain id 0 the handler answers the string "0", and [send] resolves
    the call with it; with a chain id that is [undefined] or [null] the
    handler throws a TypeError, which escapes from [send] and leaves the
    entry it had just registered in the table.  The [|| null] of the handler
    only applies to the string [toString] returned. *)
Theorem net_version_falsy_chainId :
  let p0 := set_chainId (JNum 0) sample_provider in
  let pu := set_chainId JUndefined sample_provider in
  let pn := set_chainId JNull sample_provider in
  net_version sample_provider = (Normal (JStr "1"), sample_provider) /\
  net_version p0 = (Normal (JStr "0"), p0) /\
  trace (snd (send sample_genId (JStr "net_version") (JArr []) (JNum 7) p0))
    = trace p0 ++ [Settle (ResolveOf 0) (envelope (JNum 7) (JStr "0"))] /\
  net_version pu = (Throw TypeError, pu) /\
  net_version pn = (Throw TypeError, pn) /\
  fst (send sample_genId (JStr "net_version") (JArr []) (JNum 7) pu)
    = Throw TypeError /\
  tbl_get (_promises
             (snd (send sample_genId (JStr "net_version") (JArr []) (JNum 7) pu)))
          (to_string (JNum 7)) = Found (entry_of 0).
Proof. vm_compute. repeat split; reflexivity. Qed.

(** ** C9: the callback adapter *)

(** C9.  The claim is that [sendAsync] hands a batch to [send] and reports
    to the callback.  For every array payload, [sendAsync] throws a
    TypeError to its caller: the argument it passes to [map] is the [Error]
    that [send] returned for an undefined method, the callback is never
    attached to anything, and the provider is unchanged. *)
Theorem sendAsync_batch_throws
    (genId : nat -> jsvalue) (items : list jsvalue) (callback : nat)
    (p : provider) :
  sendAsync genId (JArr items) callback p = (Throw TypeError, p).
Proof. reflexivity. Qed.

(** For a single request that [send] accepts, the adapter subscribes the
    callback to the promise; a later fulfilment reaches it as [(null, data)]
    and a rejection as an [Error] first argument. *)
Lemma sendAsync_catch_is_error error :
  printable error = true ->
  exists message, sendAsync_catch error = [JError message; JNull].
Proof.
  intros _. unfold sendAsync_catch. destruct error; cbn; eexists; reflexivity.
Qed.

Example sendAsync_single :
  let request := JObj [("method", JStr "eth_accounts"); ("params", JArr []);
                       ("id", JNum 7)] in
  sendAsync sample_genId request 0 sample_provider =
    (Normal tt,
     log (Subscribe 0 0)
       (snd (send sample_genId (JStr "eth_accounts") (JArr []) (JNum 7)
               sample_provider))).
Proof. vm_compute. reflexivity. Qed.

(** A single request that [send] refuses never reaches the callback
    either: the [Error] that comes back has no [then]. *)
Example sendAsync_single_malformed :
  sendAsync sample_genId (JObj [("method", JNum 123); ("params", JArr [])]) 0
            sample_provider
    = (Throw TypeError, sample_provider).
Proof. vm_compute. reflexivity. Qed.

(** ** [send] on well-formed input *)

Lemma send_accepted genId method params id p :
  nonempty_string method -> array_value params ->
  send genId method params id p =
    (dispatch (Build_Payload "2.0" (effective_id genId id p) method params) ;;
     ret (JPromise (allocated p))) (registered genId id p).
Proof.
  intros (m & -> & Hm) (items & ->).
  apply String.eqb_neq in Hm.
  unfold send, registered, effective_id. unfold bind at 1.
  cbn [printable ret truthy typeof is_array].
  rewrite Hm, String.eqb_refl. cbn [negb orb].
  destruct (truthy id); reflexivity.
Qed.

Lemma registered_lookup genId id p :
  tbl_get (_promises (registered genId id p))
          (to_string (effective_id genId id p)) = Found (entry_of (allocated p)).
Proof. unfold registered. cbn. apply tbl_get_set_eq. Qed.

Lemma registered_trace genId id p : trace (registered genId id p) = trace p.
Proof. unfold registered. now destruct (truthy id). Qed.

Lemma registered_ready genId id p : ready (registered genId id p) = ready p.
Proof. unfold registered. now destruct (truthy id). Qed.


(** ** C4: the readiness gate of the bridge *)


Lemma postMessage_permitted handler id data p :
  ready p = true \/ handler = "requestAccounts" ->
  postMessage handler id data p =
    (Normal tt, log (HostPost handler (host_message handler id data)) p).
Proof.
  intros H. unfold postMessage, bind, gets.
  destruct H as [-> | ->]; [reflexivity |].
  now rewrite String.eqb_refl, orb_true_r.
Qed.



(** ** How a call of [send] may change the table *)







(** ** C7: a second registration under an identifier in use *)




(** ** C10: a falsy identifier counts as absent *)




(** * Further properties of the provider *)

(** ** Frames *)

Lemma _resolve_frame id v q :
  exists r q', _resolve id v q = (r, q') /\ completion_frame id q q'.
Proof.
  unfold _resolve, destructure, delete_promise, bind, gets, modify.
  destruct v; cbn;
    try (destruct (tbl_get (_promises q) (to_string id)); frame_done).
  destruct (truthy (assoc "jsonrpc" fields)); cbn;
    [destruct (truthy (assoc "result" fields)); cbn |];
    destruct (tbl_get (_promises q) (to_string id)); frame_done.
Qed.

Lemma _reject_frame id err q :
  exists r q', _reject id err q = (r, q') /\ completion_frame id q q'.
Proof.
  unfold _reject, destructure, delete_promise, bind, gets, modify.
  destruct (tbl_get (_promises q) (to_string id)); frame_done.
Qed.

Lemma postMessage_frame handler id data q :
  exists r q', postMessage handler id data q = (r, q') /\ completion_frame id q q'.
Proof.
  unfold postMessage, bind, gets.
  destruct (ready q || (handler =? "requestAccounts")).
  - frame_done.
  - apply _reject_frame.
Qed.

Lemma local_then_resolve_frame (handler : M jsvalue) id q :
  (exists c, handler q = (c, q)) ->
  exists r q',
    (let! x := handler in _resolve id x) q = (r, q') /\ completion_frame id q q'.
Proof.
  intros [[x | e] Hh].
  - erewrite bind_normal by exact Hh. apply _resolve_frame.
  - erewrite bind_throw by exact Hh. frame_done.
Qed.

Lemma dispatch_frame payload q :
  exists r q',
    dispatch payload q = (r, q') /\ completion_frame (payload_id payload) q q'.
Proof.
  unfold dispatch.
  repeat match goal with
         | |- context [if ?b then _ else _] => destruct b
         end;
    try (apply local_then_resolve_frame;
         unfold eth_accounts, eth_coinbase, net_version, eth_chainId,
           call_toString, bind, gets;
         cbn; try (destruct (chainId q)); eexists; reflexivity);
    try apply postMessage_frame;
    frame_done.
Qed.

Lemma send_validation genId method params id p :
  (exists r,
     send genId method params id p = (r, p) /\
     (r = Throw TypeError \/ exists message, r = Normal (JError message))) \/
  (nonempty_string method /\ array_value params).
Proof.
  unfold send. unfold bind at 1.
  destruct (printable method); cbn [ret throw];
    [| left; eexists; split; [reflexivity | now left]].
  destruct (negb (truthy method) || negb (typeof method =? "string")) eqn:Hm;
    [left; eexists; split; [reflexivity | right; eexists; reflexivity] |].
  destruct (is_array params) eqn:Hp; cbn [negb];
    [| left; eexists; split; [reflexivity | right; eexists; reflexivity]].
  right. split.
  - destruct method as [| | b | z | s | l | fs | msg | n]; cbn in Hm;
      rewrite ?orb_true_r in Hm; try discriminate Hm.
    exists s. split; [reflexivity |]. intros ->. discriminate Hm.
  - destruct params; try discriminate Hp. now eexists.
Qed.

Lemma registered_settings genId id p : same_settings p (registered genId id p).
Proof. unfold registered, same_settings. destruct (truthy id); cbn; tauto. Qed.

Lemma registered_allocated genId id p :
  allocated (registered genId id p) = S (allocated p).
Proof. unfold registered. now destruct (truthy id). Qed.

Lemma registered_generated genId id p :
  generated (registered genId id p) =
    if truthy id then generated p else S (generated p).
Proof. unfold registered. now destruct (truthy id). Qed.

Lemma send_run genId method params id p :
  nonempty_string method -> array_value params ->
  exists r p',
    send genId method params id p = (r, p') /\
    (r = Normal (JPromise (allocated p)) \/ r = Throw TypeError) /\
    completion_frame (effective_id genId id p) (registered genId id p) p'.
Proof.
  intros Hm Hp. rewrite (send_accepted _ _ _ _ _ Hm Hp).
  destruct (dispatch_frame
              (Build_Payload "2.0" (effective_id genId id p) method params)
              (registered genId id p)) as (r & q' & Hd & Hs).
  unfold bind at 1. rewrite Hd.
  destruct r as [[] | []]; eexists _, _;
    (split; [reflexivity | split; [auto | exact Hs]]).
Qed.

(** ** The table, key by key *)

Lemma tbl_get_delete_ne k k' t :
  k <> k' -> tbl_get (tbl_delete k t) k' = tbl_get t k'.
Proof.
  intros Hne. unfold tbl_delete.
  destruct (k =? "__proto__"); [reflexivity |].
  unfold tbl_get. cbn. destruct (k' =? "__proto__"); [reflexivity |].
  now rewrite lookup_delete_ne.
Qed.

Lemma tbl_get_delete_found k k' t e :
  tbl_get (tbl_delete k t) k' = Found e -> tbl_get t k' = Found e.
Proof.
  destruct (decide (k = k')) as [<- | Hne].
  - destruct (k =? "__proto__") eqn:Hk.
    + unfold tbl_delete. now rewrite Hk.
    + intros H. exfalso. revert H. apply tbl_get_delete_not_found.
      now apply String.eqb_neq.
  - now rewrite tbl_get_delete_ne.
Qed.

Lemma tbl_get_set_found k k' t e e' :
  tbl_get (tbl_set k e t) k' = Found e' -> e' = e \/ tbl_get t k' = Found e'.
Proof.
  unfold tbl_set, tbl_get.
  destruct (k =? "__proto__") eqn:Hk; cbn.
  - destruct (k' =? "__proto__"); [intros [= <-]; now left |].
    destruct (own t !! k'); [now right |].
    destruct (bool_decide _); [discriminate |].
    destruct (_ || _); discriminate.
  - destruct (k' =? "__proto__"); [now right |].
    destruct (decide (k = k')) as [<- | Hne].
    + rewrite lookup_insert_eq. intros [= <-]. now left.
    + rewrite lookup_insert_ne by exact Hne. now right.
Qed.

Lemma tbl_get_set_keeps k k' t e e' :
  k <> k' -> tbl_get t k' = Found e' -> tbl_get (tbl_set k e t) k' = Found e'.
Proof.
  intros Hne. unfold tbl_set, tbl_get.
  destruct (k =? "__proto__") eqn:Hk; cbn.
  - apply String.eqb_eq in Hk. subst k.
    destruct (k' =? "__proto__") eqn:Hk'.
    + apply String.eqb_eq in Hk'. congruence.
    + destruct (own t !! k'); [tauto |].
      destruct (bool_decide _); [discriminate |].
      destruct (proto t); [destruct (_ || _) |]; discriminate.
  - destruct (k' =? "__proto__"); [tauto |].
    now rewrite lookup_insert_ne.
Qed.

Lemma table_step_found id q q' k e :
  table_step id q q' ->
  tbl_get (_promises q') k = Found e -> tbl_get (_promises q) k = Found e.
Proof.
  intros [-> | ->]; [tauto |]. apply tbl_get_delete_found.
Qed.

Lemma table_step_other id q q' k :
  table_step id q q' -> to_string id <> k ->
  tbl_get (_promises q') k = tbl_get (_promises q) k.
Proof.
  intros [-> | ->] Hne; [reflexivity |]. now apply tbl_get_delete_ne.
Qed.

(** ** The providers that exist *)

Lemma setAddress_cases a p :
  setAddress a p = (Throw TypeError, p) \/
  exists s,
    truthy a = negb (s =? "") /\
    setAddress a p =
      (Normal tt,
       log (Emit "accountsChanged" [JArr [JStr (toLowerCase s)]])
           (set_ready (truthy a) (set_address (toLowerCase s) p))).
Proof.
  unfold setAddress, or_else, bind.
  destruct (truthy a) eqn:Ht.
  - destruct a as [| | b | z | s | l | fs | msg | n]; try (left; reflexivity).
    right. exists s. split; [symmetry; exact Ht | reflexivity].
  - right. exists "". split; reflexivity.
Qed.

Lemma new_provider_cases config p :
  new_provider config = (Normal tt, p) ->
  exists s,
    truthy (config_address config) = negb (s =? "") /\
    p = Provider true (config_chainId config) (toLowerCase s)
          (truthy (config_address config)) (config_rpcUrl config)
          (config_rpcUrl config) empty_table 0 0 [Emit "connect" []].
Proof.
  destruct config as [c a url]. unfold new_provider, constructor, or_else.
  cbn [config_address config_chainId config_rpcUrl].
  destruct (truthy a) eqn:Ht.
  - destruct a as [| | b | z | s | l | fs | msg | n]; try discriminate.
    cbn -[truthy toLowerCase]. intros [= <-].
    exists s. split; [symmetry; exact Ht | reflexivity].
  - cbn -[truthy]. intros [= <-]. exists "". split; reflexivity.
Qed.

Lemma empty_table_no_entry k e : tbl_get empty_table k <> Found e.
Proof.
  unfold tbl_get, empty_table. cbn.
  destruct (k =? "__proto__"); [discriminate |].
  rewrite lookup_empty. destruct (bool_decide _); discriminate.
Qed.

Lemma new_provider_well_formed config p :
  new_provider config = (Normal tt, p) -> well_formed p.
Proof.
  intros H. destruct (new_provider_cases _ _ H) as (s & Hs & ->).
  split.
  - unfold ready_matches_address. cbn [ready address].
    now rewrite Hs, toLowerCase_empty_iff.
  - intros k e He. exfalso. exact (empty_table_no_entry _ _ He).
Qed.

Lemma setAddress_well_formed a p : well_formed p -> well_formed (snd (setAddress a p)).
Proof.
  intros Hw. destruct (setAddress_cases a p) as [-> | (s & Hs & ->)];
    [exact Hw |].
  destruct Hw as (_ & He). split.
  - unfold ready_matches_address. cbn. now rewrite Hs, toLowerCase_empty_iff.
  - exact He.
Qed.

Lemma completion_frame_well_formed id q q' :
  completion_frame id q q' -> well_formed q -> well_formed q'.
Proof.
  intros ((_ & _ & Ha & Hr & _) & Hal & _ & Ht & _) (Hw1 & Hw3).
  split.
  - unfold ready_matches_address. now rewrite Hr, Ha.
  - intros k e He. rewrite Hal. apply (Hw3 k).
    exact (table_step_found _ _ _ _ _ Ht He).
Qed.

Lemma registered_well_formed genId id p :
  well_formed p -> well_formed (registered genId id p).
Proof.
  intros (Hw1 & Hw3).
  destruct (registered_settings genId id p) as (_ & _ & Ha & Hr & _).
  split.
  - unfold ready_matches_address. now rewrite Hr, Ha.
  - intros k e He. rewrite registered_allocated.
    assert (Ht : _promises (registered genId id p) =
                 tbl_set (to_string (effective_id genId id p))
                         (entry_of (allocated p)) (_promises p))
      by (unfold registered; now destruct (truthy id)).
    rewrite Ht in He. apply tbl_get_set_found in He as [-> | He].
    + exists (allocated p). split; [reflexivity | lia].
    + destruct (Hw3 k e He) as (n & -> & Hn). exists n. split; [reflexivity | lia].
Qed.

Lemma send_well_formed genId method params id p :
  well_formed p -> well_formed (snd (send genId method params id p)).
Proof.
  intros Hw.
  destruct (send_validation genId method params id p)
    as [(r0 & -> & _) | [Hm Hp]]; [exact Hw |].
  destruct (send_run genId method params id p Hm Hp) as (r & p' & -> & _ & Hf).
  cbn [snd]. eapply completion_frame_well_formed; [exact Hf |].
  now apply registered_well_formed.
Qed.

Lemma log_well_formed ev p : well_formed p -> well_formed (log ev p).
Proof. intros H. exact H. Qed.

Lemma sendAsync_single_run genId payload callback p :
  is_array payload = false -> payload <> JUndefined -> payload <> JNull ->
  sendAsync genId payload callback p =
    match send genId (get_field payload "method") (get_field payload "params")
               (get_field payload "id") p with
    | (Normal (JPromise n), q) => (Normal tt, log (Subscribe n callback) q)
    | (Normal _, q) => (Throw TypeError, q)
    | (Throw e, q) => (Throw e, q)
    end.
Proof.
  intros Ha Hu Hn. unfold sendAsync. rewrite Ha.
  assert (Hm : forall k, member payload k = ret (get_field payload k))
    by (intros k; destruct payload; first [reflexivity | congruence]).
  rewrite !Hm. unfold bind, ret.
  destruct (send genId _ _ _ p) as [[r | e] q]; [| reflexivity].
  destruct r; reflexivity.
Qed.

Lemma sendAsync_cases genId payload callback p :
  snd (sendAsync genId payload callback p) = p \/
  exists method params id,
    let q := snd (send genId method params id p) in
    snd (sendAsync genId payload callback p) = q \/
    exists n, fst (send genId method params id p) = Normal (JPromise n) /\
              sendAsync genId payload callback p =
                (Normal tt, log (Subscribe n callback) q).
Proof.
  destruct (is_array payload) eqn:Ha.
  - left. destruct payload; try discriminate Ha. reflexivity.
  - assert (Hc : payload = JUndefined \/ payload = JNull \/
                  (payload <> JUndefined /\ payload <> JNull))
      by (destruct payload; auto; right; right; split; discriminate).
    destruct Hc as [-> | [-> | [Hu Hn]]]; [now left | now left |].
    right.
    exists (get_field payload "method"), (get_field payload "params"),
           (get_field payload "id").
    cbv zeta. rewrite (sendAsync_single_run _ _ _ _ Ha Hu Hn).
    destruct (send genId _ _ _ p) as [[r | e] q]; cbn [fst snd];
      [| now left].
    destruct r; try (now left). right. eexists. split; reflexivity.
Qed.

Lemma sendAsync_well_formed genId payload callback p :
  well_formed p -> well_formed (snd (sendAsync genId payload callback p)).
Proof.
  intros Hw.
  destruct (sendAsync_cases genId payload callback p)
    as [-> | (m & ps & id & [-> | (n & _ & ->)])];
    [exact Hw | now apply send_well_formed |].
  cbn [snd]. apply log_well_formed. now apply send_well_formed.
Qed.

Lemma perform_well_formed genId o p :
  well_formed p -> well_formed (perform genId o p).
Proof.
  intros Hw. destruct o; cbn [perform].
  - now apply setAddress_well_formed.
  - unfold setConfig.
    destruct (setAddress_cases (config_address config) p)
      as [Hs | (s & Hs & Hrun)].
    + erewrite bind_throw by exact Hs. exact Hw.
    + pose proof (setAddress_well_formed (config_address config) p Hw) as Hw'.
      rewrite Hrun in Hw'. erewrite bind_normal by exact Hrun. exact Hw'.
  - now apply send_well_formed.
  - now apply sendAsync_well_formed.
  - destruct (postMessage_frame handler id data p) as (r & q & -> & Hf).
    exact (completion_frame_well_formed _ _ _ Hf Hw).
  - destruct (_resolve_frame id result p) as (r & q & -> & Hf).
    exact (completion_frame_well_formed _ _ _ Hf Hw).
  - destruct (_reject_frame id error p) as (r & q & -> & Hf).
    exact (completion_frame_well_formed _ _ _ Hf Hw).
Qed.

Lemma reachable_well_formed genId p : reachable genId p -> well_formed p.
Proof.
  induction 1 as [config p Hnew | o p _ IH].
  - exact (new_provider_well_formed _ _ Hnew).
  - now apply perform_well_formed.
Qed.

(** X1.  In every provider that exists, whatever plain values (primitives,
    arrays, data objects, errors) the constructor, [setAddress] and
    [setConfig] were given as address and whether they returned or threw,
    [ready] is true exactly when the stored address is not empty. *)
Theorem reachable_ready_tracks_address (genId : nat -> jsvalue) (p : provider) :
  reachable genId p -> ready p = negb (address p =? "").
Proof. intros H. exact (proj1 (reachable_well_formed genId p H)). Qed.

Lemma reachable_ready_tracks_address_witness :
  let p := perform sample_genId (DoSetAddress (JNum 0))
             (perform sample_genId (DoSetAddress (JArr [])) sample_provider) in
  ready p = negb (address p =? "").
Proof.
  cbv zeta. apply (reachable_ready_tracks_address sample_genId).
  do 2 apply reachable_perform.
  apply (reachable_new sample_genId sample_config). reflexivity.
Defined.

(** X3.  In every provider that exists, the two continuations stored under
    an identifier are the resolve and reject functions of one and the same
    promise, and that promise has already been created: the entry the next
    [send] registers is never equal to one in the table. *)
Theorem reachable_entries_pair_one_promise
    (genId : nat -> jsvalue) (p : provider) (k : string) (e : entry) :
  reachable genId p ->
  tbl_get (_promises p) k = Found e ->
  (exists n, n < allocated p /\ resolve e = ResolveOf n /\ reject e = RejectOf n) /\
  e <> entry_of (allocated p).
Proof.
  intros H He.
  destruct (proj2 (reachable_well_formed genId p H) k e He)
    as (n & -> & Hn).
  split; [exists n; auto |].
  unfold entry_of. intros [= Heq]. lia.
Qed.

Lemma reachable_entries_pair_one_promise_witness :
  let p := perform sample_genId
             (DoSend (JStr "eth_sendTransaction") (JArr [JObj []]) (JNum 7))
             sample_provider in
  (exists n, n < allocated p /\ resolve (entry_of 0) = ResolveOf n /\
             reject (entry_of 0) = RejectOf n) /\
  entry_of 0 <> entry_of (allocated p).
Proof.
  cbv zeta.
  apply (reachable_entries_pair_one_promise sample_genId _ "7").
  - apply reachable_perform.
    apply (reachable_new sample_genId sample_config). reflexivity.
  - reflexivity.
Defined.

(** ** What a call of [send] leaves alone *)

(** X4.  A well-formed [send] never changes the chain id, the address, the
    readiness flag or the collaborators; it creates exactly one promise,
    draws an identifier from the generator only when the caller's is falsy,
    returns that promise or throws a TypeError, and produces at most one
    effect outside the object. *)
Theorem send_frame
    (genId : nat -> jsvalue) (method params id : jsvalue) (p : provider) :
  nonempty_string method -> array_value params ->
  exists r p',
    send genId method params id p = (r, p') /\
    (r = Normal (JPromise (allocated p)) \/ r = Throw TypeError) /\
    same_settings p p' /\
    allocated p' = S (allocated p) /\
    generated p' = (if truthy id then generated p else S (generated p)) /\
    at_most_one_effect p p'.
Proof.
  intros Hm Hp.
  destruct (send_run genId method params id p Hm Hp)
    as (r & p' & Hs & Hr & (Hset & Hal & Hg & _ & Hev)).
  exists r, p'. split; [exact Hs |]. split; [exact Hr |].
  destruct (registered_settings genId id p) as (S1 & S2 & S3 & S4 & S5 & S6).
  destruct Hset as (T1 & T2 & T3 & T4 & T5 & T6).
  split; [unfold same_settings; repeat split; congruence |].
  split; [now rewrite Hal, registered_allocated |].
  split; [now rewrite Hg, registered_generated |].
  unfold at_most_one_effect in *. now rewrite registered_trace in Hev.
Qed.

Lemma send_frame_witness :
  exists r p',
    send sample_genId (JStr "eth_getBalance") (JArr [JStr "0xabc"]) JNull
         sample_provider = (r, p') /\
    allocated p' = 1 /\ generated p' = 1 /\ ready p' = true.
Proof.
  destruct (send_frame sample_genId (JStr "eth_getBalance")
              (JArr [JStr "0xabc"]) JNull sample_provider)
    as (r & p' & Hs & _ & (_ & _ & _ & Hr & _) & Ha & Hg & _).
  - exists "eth_getBalance". split; [reflexivity | discriminate].
  - exists [JStr "0xabc"]. reflexivity.
  - exists r, p'. split; [exact Hs |]. split; [exact Ha |].
    split; [exact Hg | exact Hr].
Defined.

(** ** Completion, entry by entry *)

Lemma _resolve_no_entry id v p :
  (forall e, tbl_get (_promises p) (to_string id) <> Found e) ->
  exists r, _resolve id v p = (r, p).
Proof.
  intros Hn. unfold _resolve, destructure, delete_promise, bind, gets, modify.
  destruct v as [| | b | z | s | l | fields | msg | n]; cbn;
    try (destruct (truthy (assoc "jsonrpc" fields)); cbn;
         [destruct (truthy (assoc "result" fields)); cbn |]);
    (destruct (tbl_get (_promises p) (to_string id)) eqn:E;
     [eexists; reflexivity | exfalso; exact (Hn _ eq_refl) | eexists; reflexivity]).
Qed.

Lemma _reject_no_entry id err p :
  (forall e, tbl_get (_promises p) (to_string id) <> Found e) ->
  exists r, _reject id err p = (r, p).
Proof.
  intros Hn. unfold _reject, destructure, bind, gets.
  destruct (tbl_get (_promises p) (to_string id)) eqn:E;
    [eexists; reflexivity | exfalso; exact (Hn _ eq_refl) | eexists; reflexivity].
Qed.




(** X7.  The key [__proto__] is the exception: an entry registered under an
    identifier that converts to that string has become the prototype of the
    table, so completing it calls the continuation but removes nothing, and
    the entry is found again by every later completion. *)
Theorem proto_entry_is_never_removed
    (id v : jsvalue) (p : provider) (e : entry) :
  to_string id = "__proto__" ->
  tbl_get (_promises p) (to_string id) = Found e ->
  v <> JNull ->
  exists p1,
    _resolve id v p = (Normal tt, p1) /\
    _promises p1 = _promises p /\
    tbl_get (_promises p1) (to_string id) = Found e /\
    exists p2,
      _resolve id v p1 = (Normal tt, p2) /\
      trace p2 = trace p ++ [Settle (resolve e) (envelope id (unwrapped v));
                             Settle (resolve e) (envelope id (unwrapped v))].
Proof.
  intros Hk He Hv.
  assert (Hsame : forall k arg q,
             _promises (settled id k arg q) = _promises q).
  { intros k arg q. unfold settled, tbl_delete. now rewrite Hk. }
  eexists. split; [exact (_resolve_found _ _ _ _ Hv He) |].
  split; [apply Hsame |].
  split; [now rewrite Hsame |].
  eexists. split.
  - apply _resolve_found; [exact Hv | rewrite Hsame; exact He].
  - unfold settled. cbn. now rewrite <- app_assoc.
Qed.

Lemma proto_entry_is_never_removed_witness :
  let p := snd (send sample_genId (JStr "eth_sendTransaction") (JArr [JObj []])
                  (JStr "__proto__") sample_provider) in
  exists p1,
    _resolve (JStr "__proto__") (JStr "0xfee") p = (Normal tt, p1) /\
    tbl_get (_promises p1) "__proto__" = Found (entry_of 0).
Proof.
  cbv zeta.
  destruct (proto_entry_is_never_removed (JStr "__proto__") (JStr "0xfee")
              (snd (send sample_genId (JStr "eth_sendTransaction")
                      (JArr [JObj []]) (JStr "__proto__") sample_provider))
              (entry_of 0)) as (p1 & H1 & _ & H2 & _).
  - reflexivity.
  - reflexivity.
  - discriminate.
  - exists p1. split; [exact H1 | exact H2].
Defined.

(** X8.  Completing or bridging one identifier never disturbs another:
    whatever [_resolve], [_reject] or [postMessage] do for an identifier,
    and whether they return or throw, the table answers every other key as
    before. *)
Theorem completion_keeps_other_entries
    (handler : string) (id v data : jsvalue) (p : provider) (k : string) :
  to_string id <> k ->
  tbl_get (_promises (snd (_resolve id v p))) k = tbl_get (_promises p) k /\
  tbl_get (_promises (snd (_reject id v p))) k = tbl_get (_promises p) k /\
  tbl_get (_promises (snd (postMessage handler id data p))) k
    = tbl_get (_promises p) k.
Proof.
  intros Hne. split; [| split].
  - destruct (_resolve_frame id v p) as (r & q & -> & (_ & _ & _ & Ht & _)).
    exact (table_step_other _ _ _ _ Ht Hne).
  - destruct (_reject_frame id v p) as (r & q & -> & (_ & _ & _ & Ht & _)).
    exact (table_step_other _ _ _ _ Ht Hne).
  - destruct (postMessage_frame handler id data p)
      as (r & q & -> & (_ & _ & _ & Ht & _)).
    exact (table_step_other _ _ _ _ Ht Hne).
Qed.

Lemma completion_keeps_other_entries_witness :
  let p := set_promises (tbl_set "8" (entry_of 1)
                           (tbl_set "7" (entry_of 0) empty_table))
             sample_provider in
  tbl_get (_promises (snd (_resolve (JNum 7) (JStr "0xfee") p))) "8"
    = Found (entry_of 1).
Proof.
  cbv zeta.
  rewrite (proj1 (completion_keeps_other_entries "signMessage" (JNum 7)
                    (JStr "0xfee") JNull
                    (set_promises (tbl_set "8" (entry_of 1)
                                     (tbl_set "7" (entry_of 0) empty_table))
                       sample_provider) "8" ltac:(discriminate))).
  reflexivity.
Defined.

(** X9.  A pending call survives every [send] that goes by another
    identifier: if the identifier of the new call converts to a different
    key, the entry found under the old key before the call is found there
    after it, whatever the method and whether [send] returned or threw. *)
Theorem send_keeps_other_entries
    (genId : nat -> jsvalue) (method params id : jsvalue) (p : provider)
    (k : string) (e : entry) :
  tbl_get (_promises p) k = Found e ->
  to_string (effective_id genId id p) <> k ->
  tbl_get (_promises (snd (send genId method params id p))) k = Found e.
Proof.
  intros He Hne.
  destruct (send_validation genId method params id p)
    as [(r0 & -> & _) | [Hm Hp]]; [exact He |].
  destruct (send_run genId method params id p Hm Hp)
    as (r & p' & -> & _ & (_ & _ & _ & Ht & _)).
  cbn [snd]. rewrite (table_step_other _ _ _ _ Ht Hne).
  assert (Hreg : _promises (registered genId id p) =
                 tbl_set (to_string (effective_id genId id p))
                         (entry_of (allocated p)) (_promises p))
    by (unfold registered; now destruct (truthy id)).
  rewrite Hreg. now apply tbl_get_set_keeps.
Qed.

Lemma send_keeps_other_entries_witness :
  let p := snd (send sample_genId (JStr "eth_sendTransaction") (JArr [JObj []])
                  (JNum 7) sample_provider) in
  tbl_get (_promises
             (snd (send sample_genId (JStr "eth_accounts") (JArr []) (JNum 8) p)))
          "7" = Found (entry_of 0).
Proof.
  cbv zeta.
  apply (send_keeps_other_entries sample_genId (JStr "eth_accounts") (JArr [])
           (JNum 8)); [reflexivity | discriminate].
Defined.





(** ** What each method of [send] does *)

Lemma send_via genId m params id p (body : M unit) q' :
  m <> "" -> array_value params ->
  dispatch (Build_Payload "2.0" (effective_id genId id p) (JStr m) params) = body ->
  body (registered genId id p) = (Normal tt, q') ->
  send genId (JStr m) params id p = (Normal (JPromise (allocated p)), q').
Proof.
  intros Hm Hp Hd Hb.
  rewrite send_accepted; [| exists m; split; [reflexivity | exact Hm] | exact Hp].
  rewrite Hd. erewrite bind_normal by exact Hb. reflexivity.
Qed.






Lemma post_via genId m params id p handler object :
  m <> "" -> array_value params ->
  dispatch (Build_Payload "2.0" (effective_id genId id p) (JStr m) params)
    = postMessage handler (effective_id genId id p) object ->
  ready p = true \/ handler = "requestAccounts" ->
  send genId (JStr m) params id p = posted genId id p handler object.
Proof.
  intros Hm Hp Hd Hr. unfold posted.
  apply (send_via _ _ _ _ _ _ _ Hm Hp Hd).
  apply postMessage_permitted. now rewrite registered_ready.
Qed.












(** ** Configuration at the edges *)

Lemma setAddress_non_string a p :
  truthy a = true -> (forall s, a <> JStr s) ->
  setAddress a p = (Throw TypeError, p).
Proof.
  unfold setAddress, or_else, bind. intros -> Hs.
  destruct a; try reflexivity. now destruct (Hs s).
Qed.

(** X17.  [setAddress] treats every falsy argument (absent, [null], 0,
    [false], the empty string) as no account: the address becomes the empty
    string, [ready] becomes false, and [accountsChanged] is emitted with a
    list that holds the empty string, not with an empty list.  A truthy
    argument that is a number, a boolean, an array, a data object or an
    error, none of which has a [toLowerCase] method, makes it throw a
    TypeError before anything is stored or emitted. *)
Theorem setAddress_edge_cases (a : jsvalue) (p : provider) :
  (truthy a = false ->
     setAddress a p =
       (Normal tt,
        log (Emit "accountsChanged" [JArr [JStr ""]])
            (set_ready false (set_address "" p)))) /\
  (truthy a = true -> (forall s, a <> JStr s) ->
     setAddress a p = (Throw TypeError, p)).
Proof.
  split.
  - unfold setAddress, or_else, bind. intros ->. reflexivity.
  - apply setAddress_non_string.
Qed.

Lemma setAddress_edge_cases_witness :
  setAddress (JNum 0) sample_provider =
    (Normal tt,
     log (Emit "accountsChanged" [JArr [JStr ""]])
         (set_ready false (set_address "" sample_provider))) /\
  setAddress (JNum 5) sample_provider = (Throw TypeError, sample_provider).
Proof.
  split.
  - apply (proj1 (setAddress_edge_cases (JNum 0) sample_provider)). reflexivity.
  - apply (proj2 (setAddress_edge_cases (JNum 5) sample_provider));
      [reflexivity | discriminate].
Defined.

(** X18.  [setConfig] is all or nothing on the address.  A truthy address
    that is a number, a boolean, an array, a data object or an error, none
    of which has a [toLowerCase] method, makes it throw before the chain id or the
    collaborators are replaced, the provider staying as it was.  Otherwise
    it emits [accountsChanged] with the new address and then
    [networkChanged] with the new chain id, in that order, and creates no
    promise and draws no identifier. *)
Theorem setConfig_all_or_nothing (config : Config) (p : provider) :
  (truthy (config_address config) = true ->
   (forall s, config_address config <> JStr s) ->
     setConfig config p = (Throw TypeError, p)) /\
  (string_or_absent (config_address config) ->
     exists p',
       setConfig config p = (Normal tt, p') /\
       trace p' = trace p ++
         [Emit "accountsChanged" [JArr [JStr (address p')]];
          Emit "networkChanged" [config_chainId config]] /\
       address p' = normalized (config_address config) /\
       allocated p' = allocated p /\ generated p' = generated p).
Proof.
  split.
  - intros Ht Hs. unfold setConfig.
    erewrite bind_throw; [reflexivity |].
    now apply setAddress_non_string.
  - intros Ha. unfold setConfig.
    erewrite bind_normal by (now apply setAddress_string_or_absent).
    eexists. split; [reflexivity |]. cbn. rewrite <- app_assoc. auto.
Qed.

Lemma setConfig_all_or_nothing_witness :
  setConfig (Build_Config (JNum 56) (JArr [JStr "0xDEF"]) (JStr "https://bsc.example"))
            sample_provider
    = (Throw TypeError, sample_provider).
Proof.
  apply (proj1 (setConfig_all_or_nothing
                  (Build_Config (JNum 56) (JArr [JStr "0xDEF"])
                     (JStr "https://bsc.example")) sample_provider));
    [reflexivity | discriminate].
Defined.



(** ** The callback adapter on a single request *)

Lemma well_formed_request_is_object payload :
  nonempty_string (get_field payload "method") ->
  is_array payload = false /\ payload <> JUndefined /\ payload <> JNull.
Proof.
  intros (s & Hs & _).
  destruct payload; try discriminate Hs; repeat split; discriminate.
Qed.

(** X20.  For a single request object with a well-formed method and
    parameter list, [sendAsync] is [send] on its three properties followed
    by one subscription of the callback to the promise [send] returned; if
    [send] throws, so does [sendAsync], and the callback is subscribed to
    nothing. *)
Theorem sendAsync_single_subscribes
    (genId : nat -> jsvalue) (payload : jsvalue) (callback : nat)
    (p : provider) :
  nonempty_string (get_field payload "method") ->
  array_value (get_field payload "params") ->
  exists r q,
    send genId (get_field payload "method") (get_field payload "params")
         (get_field payload "id") p = (r, q) /\
    ((r = Normal (JPromise (allocated p)) /\
      sendAsync genId payload callback p =
        (Normal tt, log (Subscribe (allocated p) callback) q)) \/
     (r = Throw TypeError /\
      sendAsync genId payload callback p = (Throw TypeError, q))).
Proof.
  intros Hm Hp.
  destruct (well_formed_request_is_object payload Hm) as (Ha & Hu & Hn).
  destruct (send_run genId _ _ (get_field payload "id") p Hm Hp)
    as (r & q & Hs & Hr & _).
  exists r, q. split; [exact Hs |].
  rewrite (sendAsync_single_run _ _ _ _ Ha Hu Hn), Hs.
  destruct Hr as [-> | ->]; [left | right]; split; reflexivity.
Qed.

Lemma sendAsync_single_subscribes_witness :
  let request := JObj [("method", JStr "eth_coinbase"); ("params", JArr []);
                       ("id", JNum 7)] in
  exists r q,
    send sample_genId (JStr "eth_coinbase") (JArr []) (JNum 7) sample_provider
      = (r, q) /\
    sendAsync sample_genId request 3 sample_provider =
      (Normal tt, log (Subscribe 0 3) q).
Proof.
  cbv zeta.
  destruct (sendAsync_single_subscribes sample_genId
              (JObj [("method", JStr "eth_coinbase"); ("params", JArr []);
                     ("id", JNum 7)]) 3 sample_provider)
    as (r & q & Hs & [[_ Hok] | [Hr _]]).
  - exists "eth_coinbase". split; [reflexivity | discriminate].
  - exists []. reflexivity.
  - exists r, q. split; [exact Hs | exact Hok].
  - exfalso. rewrite Hr in Hs. vm_compute in Hs. discriminate Hs.
Defined.

(** X21.  Whatever [sendAsync] is given that is not an object with a
    non-empty string [method] and an array [params] (an array of requests,
    [null], a string, an object with a missing or malformed property), it
    throws a TypeError to its caller and leaves the provider untouched: no
    promise is created, nothing is registered, and the callback will never
    be called. *)
Theorem sendAsync_malformed_throws
    (genId : nat -> jsvalue) (payload : jsvalue) (callback : nat)
    (p : provider) :
  ~ nonempty_string (get_field payload "method") \/
  ~ array_value (get_field payload "params") ->
  sendAsync genId payload callback p = (Throw TypeError, p).
Proof.
  intros H.
  destruct (is_array payload) eqn:Ha.
  - destruct payload; try discriminate Ha. reflexivity.
  - assert (Hc : payload = JUndefined \/ payload = JNull \/
                 (payload <> JUndefined /\ payload <> JNull))
      by (destruct payload; auto; right; right; split; discriminate).
    destruct Hc as [-> | [-> | [Hu Hn]]]; [reflexivity | reflexivity |].
    rewrite (sendAsync_single_run _ _ _ _ Ha Hu Hn).
    destruct (send_validation genId (get_field payload "method")
                (get_field payload "params") (get_field payload "id") p)
      as [(r0 & -> & [-> | [msg ->]]) | [Hm Hp]];
      [reflexivity | reflexivity | tauto].
Qed.

Lemma sendAsync_malformed_throws_witness :
  sendAsync sample_genId (JObj [("method", JStr "eth_accounts")]) 3
            sample_provider
    = (Throw TypeError, sample_provider).
Proof.
  apply (sendAsync_malformed_throws sample_genId
           (JObj [("method", JStr "eth_accounts")]) 3 sample_provider).
  right. intros (items & Hi). discriminate Hi.
Defined.

(** ** Construction, [enable], and results the table cannot deliver *)

(** X23.  A provider comes out of the constructor with its address in lower
    case (empty for a falsy address), an empty table, no promise created and
    the single event [connect] emitted, so that no completion delivered to
    it finds a continuation; a truthy address that is a number, a boolean, an
    array, a data object or an error, none of which has a [toLowerCase]
    method, makes the constructor throw. *)
Theorem constructor_edge_cases (config : Config) :
  (truthy (config_address config) = false \/
   (exists s, config_address config = JStr s) ->
     exists p,
       new_provider config = (Normal tt, p) /\
       address p = normalized (or_else (config_address config) (JStr "")) /\
       chainId p = config_chainId config /\
       allocated p = 0 /\ trace p = [Emit "connect" []] /\
       (forall k e, tbl_get (_promises p) k <> Found e) /\
       (forall id v, exists r, _resolve id v p = (r, p)) /\
       (forall id err, exists r, _reject id err p = (r, p))) /\
  (truthy (config_address config) = true ->
   (forall s, config_address config <> JStr s) ->
     fst (new_provider config) = Throw TypeError).
Proof.
  destruct config as [c a url]. cbn [config_address config_chainId]. split.
  - intros Ha.
    assert (Hrun : new_provider (Build_Config c a url) =
              (Normal tt,
               Provider true c (normalized (or_else a (JStr ""))) (truthy a)
                 url url empty_table 0 0 [Emit "connect" []])).
    { unfold new_provider, constructor, or_else, bind.
      cbn [config_address config_chainId config_rpcUrl].
      destruct Ha as [Hf | [s ->]].
      - rewrite Hf. reflexivity.
      - rewrite truthy_JStr. destruct s; reflexivity. }
    eexists. split; [exact Hrun |]. cbn.
    repeat (split; [reflexivity |]).
    split; [intros k e; apply empty_table_no_entry |].
    split.
    + intros id v. apply _resolve_no_entry.
      intros e. apply empty_table_no_entry.
    + intros id err. apply _reject_no_entry.
      intros e. apply empty_table_no_entry.
  - intros Ht Hs. unfold new_provider, constructor, or_else, bind.
    cbn [config_address]. rewrite Ht.
    destruct a; try reflexivity. now destruct (Hs s).
Qed.

Lemma constructor_edge_cases_witness :
  exists p,
    new_provider (Build_Config (JNum 1) JNull (JStr "https://node.example"))
      = (Normal tt, p) /\
    address p = "" /\ trace p = [Emit "connect" []].
Proof.
  destruct (proj1 (constructor_edge_cases
                     (Build_Config (JNum 1) JNull (JStr "https://node.example"))))
    as (p & Hrun & Ha & _ & _ & Ht & _).
  - left. reflexivity.
  - exists p. split; [exact Hrun |]. split; [exact Ha | exact Ht].
Defined.

(** X24.  [enable] reaches the host whether the provider is ready or not:
    it posts a [requestAccounts] message under a generated identifier and
    leaves the call pending.  When the host then resolves that identifier
    with a value other than [null], the function chained to the promise
    gives back the result of the envelope, which for a plain list of
    accounts is the list the host sent. *)
Theorem enable_requests_accounts
    (genId : nat -> jsvalue) (p : provider) (v : jsvalue) :
  v <> JNull ->
  let gid := genId (generated p) in
  let q := log (HostPost "requestAccounts"
                  (JObj [("name", JStr "requestAccounts"); ("object", JObj []);
                         ("id", gid)]))
               (registered genId JUndefined p) in
  enable genId p = (Normal (JPromise (allocated p)), q) /\
  exists data,
    _resolve gid v q = (Normal tt, settled gid (ResolveOf (allocated p)) data q) /\
    enable_then data = Normal (unwrapped v) /\
    (forall accounts, v = JArr accounts -> enable_then data = Normal v).
Proof.
  intros Hv gid q. split.
  - unfold enable.
    apply (post_via genId "eth_requestAccounts" (JArr []) JUndefined p
             "requestAccounts" (JObj []));
      [discriminate | now exists [] | reflexivity | now right].
  - exists (envelope gid (unwrapped v)). split; [| split].
    + apply (_resolve_found gid v q (entry_of (allocated p)) Hv).
      subst q. cbn. apply (registered_lookup genId JUndefined p).
    + reflexivity.
    + intros accounts ->. reflexivity.
Qed.

Lemma enable_requests_accounts_witness :
  enable sample_genId (set_ready false sample_provider) =
    (Normal (JPromise 0),
     log (HostPost "requestAccounts"
            (JObj [("name", JStr "requestAccounts"); ("object", JObj []);
                   ("id", JNum 1000)]))
         (registered sample_genId JUndefined (set_ready false sample_provider))).
Proof.
  apply (enable_requests_accounts sample_genId (set_ready false sample_provider)
           (JArr [JStr "0xabc"])).
  discriminate.
Defined.





(** X27.  Completion of an identifier that has no entry, in general.  On a
    table whose prototype has not been replaced, [_resolve] and [_reject]
    throw a TypeError and change nothing when the identifier converts to a
    key that is not a member of [Object.prototype]; when it converts to the
    name of such a member ("toString", "constructor", ...), they find the
    inherited value, which has no continuations, and return without doing
    anything. *)
Theorem completion_without_entry (id v err : jsvalue) (p : provider) :
  own (_promises p) !! to_string id = None ->
  proto (_promises p) = None ->
  v <> JNull ->
  (~ In (to_string id) object_prototype_keys ->
     _resolve id v p = (Throw TypeError, p) /\
     _reject id err p = (Throw TypeError, p)) /\
  (In (to_string id) object_prototype_keys ->
     _resolve id v p = (Normal tt, p) /\
     _reject id err p = (Normal tt, p)).
Proof.
  intros Ho Hp Hv.
  assert (Hget : tbl_get (_promises p) (to_string id) =
                 if bool_decide (to_string id ∈ object_prototype_keys)
                 then Inherited else Missing).
  { unfold tbl_get. rewrite Ho, Hp.
    destruct (to_string id =? "__proto__") eqn:Hk; [| reflexivity].
    apply String.eqb_eq in Hk. rewrite Hk. reflexivity. }
  split; intros Hin.
  - rewrite bool_decide_eq_false_2 in Hget
      by (rewrite list_elem_of_In; exact Hin).
    split; [now apply _resolve_missing | now apply _reject_missing].
  - rewrite bool_decide_eq_true_2 in Hget
      by (rewrite list_elem_of_In; exact Hin).
    split.
    + unfold _resolve, destructure, bind, gets.
      destruct v; try congruence; cbn; rewrite ?Hget; try reflexivity.
      destruct (truthy (assoc "jsonrpc" fields)); cbn; rewrite ?Hget;
        [| reflexivity].
      destruct (truthy (assoc "result" fields)); cbn; now rewrite Hget.
    + unfold _reject, destructure, bind, gets. now rewrite Hget.
Qed.

Lemma completion_without_entry_witness :
  _resolve (JStr "toString") (JStr "0xfee") sample_provider
    = (Normal tt, sample_provider) /\
  _resolve (JStr "abc") (JStr "0xfee") sample_provider
    = (Throw TypeError, sample_provider).
Proof.
  destruct (completion_without_entry (JStr "toString") (JStr "0xfee") JNull
              sample_provider) as (_ & Hin);
    [reflexivity | reflexivity | discriminate |].
  destruct (completion_without_entry (JStr "abc") (JStr "0xfee") JNull
              sample_provider) as (Hout & _);
    [reflexivity | reflexivity | discriminate |].
  split.
  - apply Hin. cbn. tauto.
  - apply Hout. cbn. intros H.
    repeat (destruct H as [H | H]; [discriminate H |]). exact H.
Defined.


